(** * streaming.vision.base: the torchvision adapter of StreamingDataset

    A shallow embedding of [src/streaming/vision/base.py]:
    [StandardTransform] (its [__call__]) and [StreamingVisionDataset]
    (its [__init__] and [get_item]), followed by the properties of the
    transform contract proved on it.

    Python code runs in a state-and-exception monad.  What lives outside
    the file (torchvision's [to_tensor], the base class [StreamingDataset]
    with its constructor and its [get_item], and the callables handed in
    by the caller) acts on a world [W]: shard cache, download state, the
    random state of an augmentation, and so on. *)

From Stdlib Require Import ZArith QArith List.
From stdpp Require Import base option strings gmap.
Import ListNotations.

Local Open Scope string_scope.
Local Open Scope Z_scope.

(** ** Python values and exceptions *)

(** The objects that travel through the adapter. Samples are opaque to the
    code ([Any]); the constructors below are the ones the examples use. *)
#[local] Set Warnings "-register-all".
Inductive Any : Type :=
| PyNone
| PyBool (b : bool)
| PyInt (n : Z)
| PyStr (s : string)
| PyTuple (items : list Any)
| PyImage (height width : nat) (pixels : list Z)
| PyTensor (shape : list nat) (data : list Q).

Inductive Exn : Type :=
| ValueError (msg : string)
| KeyError (key : string)
| TypeError (msg : string)
| IndexError (msg : string)
| RuntimeError (msg : string).

Inductive Result (A : Type) : Type :=
| Ok (a : A)
| Raise (e : Exn).
Arguments Ok {A} a.
Arguments Raise {A} e.

(** ** The monad: state [S] threaded through, exceptions abort *)

Definition M (S A : Type) : Type := S -> Result A * S.

Definition ret {S A} (a : A) : M S A := fun s => (Ok a, s).

Definition raise {S A} (e : Exn) : M S A := fun s => (Raise e, s).

Definition bind {S A B} (c : M S A) (k : A -> M S B) : M S B :=
  fun s =>
    match c s with
    | (Ok a, s') => k a s'
    | (Raise e, s') => (Raise e, s')
    end.

Notation "x <- c ;; k" := (bind c (fun x => k))
  (at level 100, c at next level, right associativity).

(** A computation on the world, run from inside a method of an object
    whose attributes are [O]: the attributes are out of its reach. *)
Definition lift {O W A} (c : M W A) : M (O * W) A :=
  fun s => let (r, w') := c (snd s) in (r, (fst s, w')).

(** [self.attr] *)
Definition getattr {O W A} (attr : O -> A) : M (O * W) A :=
  fun s => (Ok (attr (fst s)), s).

(** [obj[key]] on a [dict] *)
Definition getitem {S} (obj : gmap string Any) (key : string) : M S Any :=
  match obj !! key with
  | Some v => ret v
  | None => raise (KeyError key)
  end.

(** [o is not None] *)
Definition is_not_None {A} (o : option A) : bool :=
  match o with
  | Some _ => true
  | None => false
  end.

(** From world [w], [c] returns [a] and leaves world [w']. *)
Definition returns {W A} (c : M W A) (w : W) (a : A) (w' : W) : Prop :=
  c w = (Ok a, w').

(** From world [w], [c] raises [e] and leaves world [w']. *)
Definition raises {W A} (c : M W A) (w : W) (e : Exn) (w' : W) : Prop :=
  c w = (Raise e, w').

(** The result of [c] is the same from every world. *)
Definition deterministic {W A} (c : M W A) : Prop :=
  forall w1 w2, fst (c w1) = fst (c w2).

(** ** Callables and the code outside the file *)

(** A callable of one argument, as [transform] and [target_transform]
    are. [if f:] asks for the truth value of the object ([__bool__], or
    [__len__] for a container such as an empty [torch.nn.Sequential]),
    which is [True] for functions and for objects that define neither. *)
Record Callable (W : Type) : Type := {
  truth : bool;
  call : Any -> M W Any
}.
Arguments truth {W} _.
Arguments call {W} _ _.

(** [bool(o)] for an [Optional[Callable]]: [None] is false. *)
Definition py_bool {W} (o : option (Callable W)) : bool :=
  match o with
  | Some f => truth f
  | None => false
  end.

(** [o(v)] for an [Optional[Callable]] *)
Definition py_call {W} (o : option (Callable W)) (v : Any) : M W Any :=
  match o with
  | Some f => call f v
  | None => raise (TypeError "'NoneType' object is not callable")
  end.

(** The imports of the file: [to_tensor] of
    torchvision.transforms.functional, and the base class
    [StreamingDataset] of streaming.base, with [__init__] taking its
    arguments in the order of the call in the source and [get_item]
    returning the sample at a global index, a [dict]. *)
Class Env (W : Type) : Type := {
  to_tensor : Any -> M W Any;
  StreamingDataset_init :
    option string -> option string -> option string -> Z -> Q ->
    option string -> bool -> bool -> option Z -> string -> option Z ->
    option Z -> bool -> string -> Z -> Z -> M W unit;
  StreamingDataset_get_item : Z -> M W (gmap string Any)
}.

(** ** class StandardTransform *)

Record StandardTransform (W : Type) : Type := {
  st_transform : option (Callable W);
  st_target_transform : option (Callable W)
}.
Arguments st_transform {W} _.
Arguments st_target_transform {W} _.

(** StandardTransform.__call__ *)
Definition StandardTransform_call {W} {env : Env W}
    (self : StandardTransform W) (x y : Any) : M W Any :=
  x <- (if py_bool (st_transform self)
        then py_call (st_transform self) x
        else to_tensor x) ;;
  y <- (if py_bool (st_target_transform self)
        then py_call (st_target_transform self) y
        else ret y) ;;
  ret (PyTuple [x; y]).

(** ** class StreamingVisionDataset *)

(** What [self.transforms] holds: the caller's joint callable, called
    with the pair, or a [StandardTransform] built by [__init__]. *)
Inductive Transforms (W : Type) : Type :=
| Joint (f : Any -> Any -> M W Any)
| Standard (st : StandardTransform W).
Arguments Joint {W} f.
Arguments Standard {W} st.

(** [t(x, y)] *)
Definition call_transforms {W} {env : Env W}
    (t : Transforms W) (x y : Any) : M W Any :=
  match t with
  | Joint f => f x y
  | Standard st => StandardTransform_call st x y
  end.

(** The attributes that [StreamingVisionDataset.__init__] sets. The
    attributes inherited from the engine are part of the world. *)
Record StreamingVisionDataset (W : Type) : Type := {
  transform : option (Callable W);
  target_transform : option (Callable W);
  transforms : Transforms W
}.
Arguments transform {W} _.
Arguments target_transform {W} _.
Arguments transforms {W} _.

(** The keyword arguments of [__init__] that configure the engine. *)
Record Kwargs : Type := {
  remote : option string;
  local : option string;
  split : option string;
  download_retry : Z;
  download_timeout : Q;
  validate_hash : option string;
  keep_zip : bool;
  keep_raw : bool;
  choose : option Z;
  predownload : option Z;
  partition_algo : string;
  num_canonical_nodes : option Z;
  batch_size : option Z;
  shuffle : bool;
  shuffle_algo : string;
  shuffle_seed : Z;
  shuffle_block_size : Z
}.

(** The call [StreamingDataset.__init__(self, remote=remote, ...)] that
    opens the constructor; [choose] is not among the arguments passed. *)
Definition super_init {W} {env : Env W} (kw : Kwargs) : M W unit :=
  StreamingDataset_init (remote kw) (local kw) (split kw)
    (download_retry kw) (download_timeout kw) (validate_hash kw)
    (keep_zip kw) (keep_raw kw) (predownload kw) (partition_algo kw)
    (num_canonical_nodes kw) (batch_size kw) (shuffle kw)
    (shuffle_algo kw) (shuffle_seed kw) (shuffle_block_size kw).

(** The error of the constructor (a [ValueError]). *)
Definition ConfigurationError : Exn :=
  ValueError
    "Only transforms or transform/target_transform can be passed as an argument".

(** StreamingVisionDataset.__init__; the value returned is the object
    with the attributes the constructor has set. *)
Definition StreamingVisionDataset_init {W} {env : Env W} (kw : Kwargs)
    (transforms : option (Any -> Any -> M W Any))
    (transform target_transform : option (Callable W))
  : M W (StreamingVisionDataset W) :=
  _ <- super_init kw ;;
  let has_transforms := is_not_None transforms in
  let has_separate_transform :=
    is_not_None transform || is_not_None target_transform in
  if has_transforms && has_separate_transform
  then raise ConfigurationError
  else
    ret {| transform := transform;
           target_transform := target_transform;
           transforms :=
             match transforms with
             | None => Standard {| st_transform := transform;
                                   st_target_transform := target_transform |}
             | Some f => Joint f
             end |}.

(** StreamingVisionDataset.get_item *)
Definition get_item {W} {env : Env W} (idx : Z)
  : M (StreamingVisionDataset W * W) Any :=
  obj <- lift (StreamingDataset_get_item idx) ;;
  x <- getitem obj "x" ;;
  y <- getitem obj "y" ;;
  f <- getattr transforms ;;
  lift (call_transforms f x y).

(** A sequence of retrievals on one adapter, whatever each one yields. *)
Fixpoint get_items {W} {env : Env W} (idxs : list Z)
    (s : StreamingVisionDataset W * W)
  : list (Result Any) * (StreamingVisionDataset W * W) :=
  match idxs with
  | [] => ([], s)
  | idx :: rest =>
      let (r, s1) := get_item idx s in
      let (rs, s2) := get_items rest s1 in
      (r :: rs, s2)
  end.

(** ** Where an exception of apply comes from *)

(** A callable invoked by [t(x, y)] from world [w] raises [e]: the joint
    callable, the input transform (or [to_tensor] in its place), or the
    target transform once the input has been transformed. *)
Inductive callable_raises {W} {env : Env W} :
  Transforms W -> Any -> Any -> W -> Exn -> W -> Prop :=
| joint_raises f x y w e w' :
    raises (f x y) w e w' ->
    callable_raises (Joint f) x y w e w'
| transform_raises st f x y w e w' :
    st_transform st = Some f -> truth f = true ->
    raises (call f x) w e w' ->
    callable_raises (Standard st) x y w e w'
| to_tensor_raises st x y w e w' :
    py_bool (st_transform st) = false ->
    raises (to_tensor x) w e w' ->
    callable_raises (Standard st) x y w e w'
| target_transform_raises st g x y w x' w1 e w' :
    returns (if py_bool (st_transform st)
             then py_call (st_transform st) x
             else to_tensor x) w x' w1 ->
    st_target_transform st = Some g -> truth g = true ->
    raises (call g y) w1 e w' ->
    callable_raises (Standard st) x y w e w'.

Definition deterministic_callable {W} (o : option (Callable W)) : Prop :=
  match o with
  | Some f => forall v, deterministic (call f v)
  | None => True
  end.

(** Every callable that [t(x, y)] may invoke is deterministic. *)
Definition deterministic_transforms {W} {env : Env W} (t : Transforms W)
  : Prop :=
  match t with
  | Joint f => forall x y, deterministic (f x y)
  | Standard st =>
      (forall x, deterministic (to_tensor x)) /\
      deterministic_callable (st_transform st) /\
      deterministic_callable (st_target_transform st)
  end.

(** ** The constructor's arguments and the attributes it leaves *)

(** The keyword arguments with [choose=c] in place of their own. *)
Definition with_choose (c : option Z) (kw : Kwargs) : Kwargs :=
  {| remote := remote kw; local := local kw; split := split kw;
     download_retry := download_retry kw;
     download_timeout := download_timeout kw;
     validate_hash := validate_hash kw;
     keep_zip := keep_zip kw; keep_raw := keep_raw kw; choose := c;
     predownload := predownload kw; partition_algo := partition_algo kw;
     num_canonical_nodes := num_canonical_nodes kw;
     batch_size := batch_size kw; shuffle := shuffle kw;
     shuffle_algo := shuffle_algo kw; shuffle_seed := shuffle_seed kw;
     shuffle_block_size := shuffle_block_size kw |}.

(** [self.transforms] agrees with [self.transform] and
    [self.target_transform]: a joint callable goes with neither, and a
    [StandardTransform] holds exactly the two. *)
Definition consistent {W} (self : StreamingVisionDataset W) : Prop :=
  match transforms self with
  | Joint _ => transform self = None /\ target_transform self = None
  | Standard st =>
      st_transform st = transform self /\
      st_target_transform st = target_transform self
  end.

(** ** A small instance: grey-scale images behind a counting engine *)

Module Example.

(** [to_tensor] on a PIL image of mode L: one channel, bytes scaled to
    [0, 1]; anything else is refused as torchvision does. *)
Definition to_tensor_L (pic : Any) : M nat Any :=
  match pic with
  | PyImage h w px =>
      ret (PyTensor [1%nat; h; w] (map (fun p => Qmake p 255) px))
  | _ => raise (TypeError "pic should be PIL Image or ndarray")
  end.

Definition image0 : Any := PyImage 1 2 [0; 255].
Definition image1 : Any := PyImage 1 2 [51; 102].

(** Three samples, the last one without a target; the world counts the
    retrievals served. *)
Definition engine_get_item (idx : Z) : M nat (gmap string Any) :=
  fun n =>
    if idx =? 0 then (Ok {[ "x" := image0; "y" := PyInt 7 ]}, S n)
    else if idx =? 1 then (Ok {[ "x" := image1; "y" := PyInt 3 ]}, S n)
    else if idx =? 2 then (Ok {[ "x" := image1 ]}, S n)
    else (Raise (IndexError "index out of range"), n).

#[global] Instance env : Env nat := {|
  to_tensor := to_tensor_L;
  StreamingDataset_init := fun _ _ _ _ _ _ _ _ _ _ _ _ _ _ _ _ => ret tt;
  StreamingDataset_get_item := engine_get_item
|}.

(** The defaults of the keyword arguments. *)
Definition defaults : Kwargs := {|
  remote := None; local := None; split := None;
  download_retry := 2; download_timeout := 60%Q; validate_hash := None;
  keep_zip := false; keep_raw := true; choose := None;
  predownload := Some 100000; partition_algo := "orig";
  num_canonical_nodes := None; batch_size := None; shuffle := false;
  shuffle_algo := "py1b"; shuffle_seed := 9176;
  shuffle_block_size := Z.shiftl 1 18 |}.

(** An input transform: mirror the image. *)
Definition hflip : Callable nat := {|
  truth := true;
  call := fun v => match v with
                   | PyImage h w px => ret (PyImage h w (rev px))
                   | _ => raise (TypeError "img should be PIL Image")
                   end |}.

(** A target transform: shift the label. *)
Definition next_label : Callable nat := {|
  truth := true;
  call := fun v => match v with
                   | PyInt n => ret (PyInt (n + 1))
                   | _ => raise (TypeError "unsupported operand")
                   end |}.

(** A transform that always fails. *)
Definition broken : Callable nat := {|
  truth := true;
  call := fun _ => raise (RuntimeError "augmentation failed") |}.

(** An empty [torch.nn.Sequential()]: calling it returns its argument,
    and its length 0 makes it false. *)
Definition empty_sequential : Callable nat := {|
  truth := false;
  call := fun v => ret v |}.

(** A joint transform that returns something that is not a pair. *)
Definition describe (x y : Any) : M nat Any :=
  match y with
  | PyInt n => ret (PyStr (if n =? 7 then "seven" else "other"))
  | _ => ret PyNone
  end.

(** The adapters that the constructor builds from these. *)
Definition plain : StreamingVisionDataset nat := {|
  transform := None; target_transform := None;
  transforms := Standard {| st_transform := None;
                            st_target_transform := None |} |}.

Definition flipping : StreamingVisionDataset nat := {|
  transform := Some hflip; target_transform := Some next_label;
  transforms := Standard {| st_transform := Some hflip;
                            st_target_transform := Some next_label |} |}.

Definition failing : StreamingVisionDataset nat := {|
  transform := Some broken; target_transform := None;
  transforms := Standard {| st_transform := Some broken;
                            st_target_transform := None |} |}.

Definition sequential : StreamingVisionDataset nat := {|
  transform := Some empty_sequential; target_transform := None;
  transforms := Standard {| st_transform := Some empty_sequential;
                            st_target_transform := None |} |}.

Definition describing : StreamingVisionDataset nat := {|
  transform := None; target_transform := None;
  transforms := Joint describe |}.

(** The adapter [flipping] after [ds.transform = None]: the attribute is
    gone, the [StandardTransform] built by the constructor still holds the
    callable. *)
Definition flipping_reassigned : StreamingVisionDataset nat := {|
  transform := None; target_transform := Some next_label;
  transforms := Standard {| st_transform := Some hflip;
                            st_target_transform := Some next_label |} |}.

(** The same collaborators with an engine that cannot be constructed. *)
Definition offline : Env nat := {|
  to_tensor := to_tensor_L;
  StreamingDataset_init :=
    fun _ _ _ _ _ _ _ _ _ _ _ _ _ _ _ _ =>
      raise (RuntimeError "index.json could not be downloaded");
  StreamingDataset_get_item := engine_get_item
|}.

End Example.

(** * Properties *)

Section Properties.

Context {W : Type} {env : Env W}.

(** ** The shape of a retrieval *)

Lemma lift_run {O A} (c : M W A) (o : O) (w : W) :
  lift c (o, w) = let (r, w') := c w in (r, (o, w')).
Proof. reflexivity. Qed.

(** One retrieval, case by case. *)
Lemma get_item_cases (self : StreamingVisionDataset W) idx w :
  get_item idx (self, w) =
    match StreamingDataset_get_item idx w with
    | (Raise e, w1) => (Raise e, (self, w1))
    | (Ok obj, w1) =>
        match obj !! "x" with
        | None => (Raise (KeyError "x"), (self, w1))
        | Some x =>
            match obj !! "y" with
            | None => (Raise (KeyError "y"), (self, w1))
            | Some y => lift (call_transforms (transforms self) x y) (self, w1)
            end
        end
    end.
Proof.
  unfold get_item, bind, getitem, getattr. rewrite lift_run.
  destruct (StreamingDataset_get_item idx w) as [[obj|e] w1]; [|reflexivity].
  destruct (obj !! "x") as [x|]; [|reflexivity].
  destruct (obj !! "y") as [y|]; reflexivity.
Qed.

(** A retrieval hands the attributes back as it found them. *)
Lemma get_item_self (self : StreamingVisionDataset W) idx w :
  fst (snd (get_item idx (self, w))) = self.
Proof.
  rewrite get_item_cases.
  destruct (StreamingDataset_get_item idx w) as [[obj|e] w1]; [|reflexivity].
  destruct (obj !! "x") as [x|]; [|reflexivity].
  destruct (obj !! "y") as [y|]; [|reflexivity].
  rewrite lift_run. destruct (call_transforms _ x y w1); reflexivity.
Qed.

(** The constructor, case by case. *)
Lemma init_cases kw ts (t tt : option (Callable W)) w0 :
  StreamingVisionDataset_init kw ts t tt w0 =
    match super_init kw w0 with
    | (Raise e, w1) => (Raise e, w1)
    | (Ok _, w1) =>
        if is_not_None ts && (is_not_None t || is_not_None tt)
        then (Raise ConfigurationError, w1)
        else (Ok {| transform := t; target_transform := tt;
                    transforms :=
                      match ts with
                      | None => Standard {| st_transform := t;
                                            st_target_transform := tt |}
                      | Some f => Joint f
                      end |}, w1)
    end.
Proof.
  unfold StreamingVisionDataset_init, bind.
  destruct (super_init kw w0) as [[u|e] w1]; [|reflexivity].
  destruct (is_not_None ts && (is_not_None t || is_not_None tt)); reflexivity.
Qed.

Lemma is_not_None_spec {A} (o : option A) : is_not_None o = true <-> o <> None.
Proof. destruct o; simpl; split; congruence. Qed.

(** ** Exceptions of apply *)

(** What raises inside [t(x, y)] is what [t(x, y)] raises. *)
Lemma callable_raises_sound (t : Transforms W) x y w e w' :
  callable_raises t x y w e w' -> raises (call_transforms t x y) w e w'.
Proof.
  unfold raises.
  intros [f ? ? ? ? ? Hf | st f ? ? ? ? ? Hst Hb Hf | st ? ? ? ? ? Hb Hf
         | st g ? ? ? x' w1 ? ? Hx Hst Hb Hg]; simpl.
  - exact Hf.
  - unfold StandardTransform_call, bind, py_bool, py_call.
    rewrite Hst, Hb, Hf. reflexivity.
  - unfold StandardTransform_call, bind. rewrite Hb, Hf. reflexivity.
  - unfold StandardTransform_call, bind. unfold returns in Hx. rewrite Hx.
    unfold py_bool, py_call. rewrite Hst, Hb, Hg. reflexivity.
Qed.

(** And [t(x, y)] raises nothing of its own. *)
Lemma callable_raises_complete (t : Transforms W) x y w e w' :
  raises (call_transforms t x y) w e w' -> callable_raises t x y w e w'.
Proof.
  unfold raises. destruct t as [f|st]; simpl.
  - apply joint_raises.
  - unfold StandardTransform_call, bind.
    destruct (py_bool (st_transform st)) eqn:Hb.
    + destruct (st_transform st) as [f|] eqn:Hst; [|discriminate].
      simpl in Hb. simpl.
      destruct (call f x w) as [[x'|e1] w1] eqn:Hf.
      * destruct (py_bool (st_target_transform st)) eqn:Hb2.
        -- destruct (st_target_transform st) as [g|] eqn:Hst2; [|discriminate].
           simpl in Hb2. simpl.
           destruct (call g y w1) as [[y'|e2] w2] eqn:Hg; [discriminate|].
           intros [= <- <-].
           eapply target_transform_raises; eauto.
           unfold returns, py_bool, py_call. rewrite Hst, Hb. exact Hf.
        -- discriminate.
      * intros [= <- <-]. eapply transform_raises; eauto.
    + destruct (to_tensor x w) as [[x'|e1] w1] eqn:Hf.
      * destruct (py_bool (st_target_transform st)) eqn:Hb2.
        -- destruct (st_target_transform st) as [g|] eqn:Hst2; [|discriminate].
           simpl in Hb2. simpl.
           destruct (call g y w1) as [[y'|e2] w2] eqn:Hg; [discriminate|].
           intros [= <- <-].
           eapply target_transform_raises; eauto.
           unfold returns. rewrite Hb. exact Hf.
        -- discriminate.
      * intros [= <- <-]. eapply to_tensor_raises; eauto.
Qed.

(** ** Retrieval *)

(** C6: get_item(idx) asks the engine for the sample at idx, takes its
    'x' and 'y' as the raw pair, and returns what self.transforms gives
    on that pair, run from the world the engine left; nothing else is
    done to the result. *)
Theorem get_item_applies_transforms
    (self : StreamingVisionDataset W) idx w obj w1 x y :
  returns (StreamingDataset_get_item idx) w obj w1 ->
  obj !! "x" = Some x ->
  obj !! "y" = Some y ->
  get_item idx (self, w) =
    let (r, w2) := call_transforms (transforms self) x y w1 in
    (r, (self, w2)).
Proof.
  intros Hobj Hx Hy. rewrite get_item_cases, Hobj, Hx, Hy. apply lift_run.
Qed.

(** C10: get_item reads the engine's object as a dict: the input is
    obj['x'] and the target obj['y']; when 'x' is missing, or 'x' is
    there and 'y' is missing, the KeyError of the lookup reaches the
    caller from the world the engine left, whatever the transforms of
    the adapter are: none of them has run. *)
Theorem get_item_missing_key (self : StreamingVisionDataset W) idx w obj w1 :
  returns (StreamingDataset_get_item idx) w obj w1 ->
  get_item idx (self, w) =
    match obj !! "x", obj !! "y" with
    | None, _ => (Raise (KeyError "x"), (self, w1))
    | Some _, None => (Raise (KeyError "y"), (self, w1))
    | Some x, Some y => lift (call_transforms (transforms self) x y) (self, w1)
    end.
Proof.
  intros Hobj. rewrite get_item_cases, Hobj.
  destruct (obj !! "x"); destruct (obj !! "y"); reflexivity.
Qed.

(** C9: over any sequence of get_item calls the attributes of the
    adapter (transform, target_transform, transforms) come out as they
    went in, and so does each single call: every retrieval of the
    sequence runs with the same attributes. *)
Theorem get_item_keeps_attributes (idxs : list Z)
    (self : StreamingVisionDataset W) w :
  fst (snd (get_items idxs (self, w))) = self /\
  forall idx w', fst (snd (get_item idx (self, w'))) = self.
Proof.
  split; [|intros; apply get_item_self].
  revert w. induction idxs as [|idx rest IH]; intros w; [reflexivity|].
  simpl. pose proof (get_item_self self idx w) as Hs.
  destruct (get_item idx (self, w)) as [r [self1 w1]]. simpl in Hs.
  subst self1. specialize (IH w1).
  destruct (get_items rest (self, w1)) as [rs s2]. exact IH.
Qed.

(** C7: when the engine's retrieval raises e, or when it returns a
    sample and a callable invoked on that sample (the joint transform,
    the input transform or to_tensor, the target transform) raises e,
    get_item raises that same e from the world in which it was raised:
    nothing is caught, wrapped or retried, and no sample is returned. *)
Theorem get_item_propagates_errors
    (self : StreamingVisionDataset W) idx w e w' :
  raises (StreamingDataset_get_item idx) w e w' \/
  (exists obj x y w1,
      returns (StreamingDataset_get_item idx) w obj w1 /\
      obj !! "x" = Some x /\ obj !! "y" = Some y /\
      callable_raises (transforms self) x y w1 e w') ->
  get_item idx (self, w) = (Raise e, (self, w')).
Proof.
  rewrite get_item_cases.
  intros [He | (obj & x & y & w1 & Hobj & Hx & Hy & Hc)].
  - unfold raises in He. rewrite He. reflexivity.
  - unfold returns in Hobj. rewrite Hobj, Hx, Hy, lift_run.
    apply callable_raises_sound in Hc. unfold raises in Hc. rewrite Hc.
    reflexivity.
Qed.

(** An exception of a retrieval is the engine's, a KeyError of the two
    lookups, or one raised by a callable of the transforms. *)
Lemma get_item_raises_origin (self : StreamingVisionDataset W) idx w e s' :
  get_item idx (self, w) = (Raise e, s') ->
  raises (StreamingDataset_get_item idx) w e (snd s') \/
  e = KeyError "x" \/ e = KeyError "y" \/
  exists x y w1, callable_raises (transforms self) x y w1 e (snd s').
Proof.
  rewrite get_item_cases.
  destruct (StreamingDataset_get_item idx w) as [[obj|e1] w1] eqn:Hobj.
  - destruct (obj !! "x") as [x|]; [|intros [= <- <-]; auto].
    destruct (obj !! "y") as [y|]; [|intros [= <- <-]; auto].
    rewrite lift_run.
    destruct (call_transforms (transforms self) x y w1) as [r w2] eqn:Hc.
    intros [= -> <-]. right; right; right. exists x, y, w1.
    apply callable_raises_complete. exact Hc.
  - intros [= <- <-]. left. exact Hobj.
Qed.

(** ** Construction *)

(** C2: once the engine is constructed, the constructor raises the
    configuration error exactly when transforms is given together with
    transform or target_transform; otherwise it returns the adapter; and
    a retrieval that raises this error has it from the engine or from a
    callable of the transforms, never from the adapter itself. *)
Theorem configuration_error_iff kw ts (t tt : option (Callable W)) w0 w1 :
  returns (super_init kw) w0 () w1 ->
  (raises (StreamingVisionDataset_init kw ts t tt) w0 ConfigurationError w1
     <-> ts <> None /\ (t <> None \/ tt <> None)) /\
  (~ (ts <> None /\ (t <> None \/ tt <> None)) ->
     exists self, returns (StreamingVisionDataset_init kw ts t tt) w0 self w1) /\
  (forall (self : StreamingVisionDataset W) idx w s',
     get_item idx (self, w) = (Raise ConfigurationError, s') ->
     raises (StreamingDataset_get_item idx) w ConfigurationError (snd s') \/
     exists x y w2,
       callable_raises (transforms self) x y w2 ConfigurationError (snd s')).
Proof.
  intros Hsuper. unfold returns in Hsuper. unfold raises at 1, returns.
  rewrite init_cases, Hsuper.
  assert (Hc : is_not_None ts && (is_not_None t || is_not_None tt) = true
               <-> ts <> None /\ (t <> None \/ tt <> None)).
  { rewrite andb_true_iff, orb_true_iff, !is_not_None_spec. reflexivity. }
  split; [|split].
  - destruct (is_not_None ts && (is_not_None t || is_not_None tt)).
    + split; [intros _; apply Hc; reflexivity | reflexivity].
    + split; [discriminate | intros H; apply Hc in H; discriminate].
  - intros Hn.
    destruct (is_not_None ts && (is_not_None t || is_not_None tt)).
    + exfalso. apply Hn, Hc. reflexivity.
    + eexists. reflexivity.
  - intros self idx w s' Hg.
    destruct (get_item_raises_origin _ _ _ _ _ Hg) as [H|[H|[H|H]]];
      [left; exact H | discriminate | discriminate | right; exact H].
Qed.

(** The three ways of configuring the transforms, once the engine is
    constructed. *)
Lemma init_returns kw ts (t tt : option (Callable W)) w0 w1 :
  returns (super_init kw) w0 () w1 ->
  is_not_None ts && (is_not_None t || is_not_None tt) = false ->
  returns (StreamingVisionDataset_init kw ts t tt) w0
    {| transform := t; target_transform := tt;
       transforms :=
         match ts with
         | None => Standard {| st_transform := t; st_target_transform := tt |}
         | Some f => Joint f
         end |} w1.
Proof.
  unfold returns. intros Hsuper Hc. rewrite init_cases, Hsuper, Hc.
  reflexivity.
Qed.

(** ** The transforms applied *)

(** C3: constructed with no transform at all, the adapter holds
    StandardTransform(None, None); applied to (x, y) it returns
    (to_tensor(x), y), the target as it came; and get_item returns
    (to_tensor(raw_x), raw_y) for the raw pair of the engine. *)
Theorem default_normalizes_input kw w0 w1 :
  returns (super_init kw) w0 () w1 ->
  exists self,
    returns (StreamingVisionDataset_init kw None None None) w0 self w1 /\
    (forall x y w,
        call_transforms (transforms self) x y w =
          (x' <- to_tensor x ;; ret (PyTuple [x'; y])) w) /\
    (forall idx w obj w' x y,
        returns (StreamingDataset_get_item idx) w obj w' ->
        obj !! "x" = Some x -> obj !! "y" = Some y ->
        get_item idx (self, w) =
          lift (x' <- to_tensor x ;; ret (PyTuple [x'; y])) (self, w')).
Proof.
  intros Hsuper. eexists. split; [|split].
  - apply (init_returns kw None None None w0 w1 Hsuper). reflexivity.
  - intros x y w. simpl. unfold StandardTransform_call, bind. simpl.
    destruct (to_tensor x w) as [[x'|e] w']; reflexivity.
  - intros idx w obj w' x y Hobj Hx Hy.
    rewrite get_item_cases, Hobj, Hx, Hy, !lift_run. simpl.
    unfold StandardTransform_call, bind. simpl.
    destruct (to_tensor x w') as [[x'|e] w2]; reflexivity.
Qed.

(** C4: constructed with a joint transform f only, the adapter holds f
    itself; applied to (x, y) it is f(x, y), and get_item returns what f
    returns on the raw pair, whatever kind of value that is. *)
Theorem joint_transform_verbatim kw (f : Any -> Any -> M W Any) w0 w1 :
  returns (super_init kw) w0 () w1 ->
  exists self,
    returns (StreamingVisionDataset_init kw (Some f) None None) w0 self w1 /\
    (forall x y w, call_transforms (transforms self) x y w = f x y w) /\
    (forall idx w obj w' x y,
        returns (StreamingDataset_get_item idx) w obj w' ->
        obj !! "x" = Some x -> obj !! "y" = Some y ->
        get_item idx (self, w) = lift (f x y) (self, w')).
Proof.
  intros Hsuper. eexists. split; [|split].
  - apply (init_returns kw (Some f) None None w0 w1 Hsuper). reflexivity.
  - reflexivity.
  - intros idx w obj w' x y Hobj Hx Hy.
    rewrite get_item_cases, Hobj, Hx, Hy. reflexivity.
Qed.

(** An input transform that is true as an object is applied to the input,
    and the target passes. *)
Lemma input_transform_applied (f : Callable W) x y w :
  truth f = true ->
  StandardTransform_call
    {| st_transform := Some f; st_target_transform := None |} x y w =
    (x' <- call f x ;; ret (PyTuple [x'; y])) w.
Proof.
  intros Hf. unfold StandardTransform_call, bind. simpl. rewrite Hf.
  destruct (call f x w) as [[x'|e] w']; reflexivity.
Qed.

(** Constructed with an input transform alone that is true as an object,
    the adapter holds StandardTransform(f, None) and get_item returns
    (f(raw_x), raw_y). *)
Lemma input_transform_only kw (f : Callable W) w0 w1 :
  truth f = true ->
  returns (super_init kw) w0 () w1 ->
  exists self,
    returns (StreamingVisionDataset_init kw None (Some f) None) w0 self w1 /\
    transforms self =
      Standard {| st_transform := Some f; st_target_transform := None |} /\
    (forall idx w obj w' x y,
        returns (StreamingDataset_get_item idx) w obj w' ->
        obj !! "x" = Some x -> obj !! "y" = Some y ->
        get_item idx (self, w) =
          lift (x' <- call f x ;; ret (PyTuple [x'; y])) (self, w')).
Proof.
  intros Hf Hsuper. eexists. split; [|split].
  - apply (init_returns kw None (Some f) None w0 w1 Hsuper). reflexivity.
  - reflexivity.
  - intros idx w obj w' x y Hobj Hx Hy.
    rewrite get_item_cases, Hobj, Hx, Hy, !lift_run. simpl.
    rewrite input_transform_applied by exact Hf.
    reflexivity.
Qed.

(** C1, as the code has it: with the input transform absent the input
    goes through to_tensor. StandardTransform(None, g), for g true as an
    object, returns (to_tensor(x), g(y)); StandardTransform(None, None)
    returns (to_tensor(x), y), and it is the very value the constructor
    builds when no transform is given, so the two cannot be told apart. *)
Theorem absent_input_transform_is_to_tensor (g : Callable W) :
  truth g = true ->
  (forall x y w,
      StandardTransform_call
        {| st_transform := None; st_target_transform := Some g |} x y w =
        (x' <- to_tensor x ;; y' <- call g y ;; ret (PyTuple [x'; y'])) w) /\
  (forall x y w,
      StandardTransform_call
        {| st_transform := None; st_target_transform := None |} x y w =
        (x' <- to_tensor x ;; ret (PyTuple [x'; y])) w) /\
  (forall kw w0 w1,
      returns (super_init kw) w0 () w1 ->
      exists self,
        returns (StreamingVisionDataset_init kw None None None) w0 self w1 /\
        transforms self =
          Standard {| st_transform := None; st_target_transform := None |}).
Proof.
  intros Hg. split; [|split].
  - intros x y w. unfold StandardTransform_call, bind. simpl. rewrite Hg.
    destruct (to_tensor x w) as [[x'|e] w1]; [|reflexivity].
    destruct (call g y w1) as [[y'|e] w2]; reflexivity.
  - intros x y w. unfold StandardTransform_call, bind. simpl.
    destruct (to_tensor x w) as [[x'|e] w1]; reflexivity.
  - intros kw w0 w1 Hsuper. eexists. split.
    + apply (init_returns kw None None None w0 w1 Hsuper). reflexivity.
    + reflexivity.
Qed.

(** ** Two retrievals of one index *)

Lemma bind_deterministic {A B} (c : M W A) (k : A -> M W B) :
  deterministic c -> (forall a, deterministic (k a)) ->
  deterministic (bind c k).
Proof.
  intros Hc Hk w1 w2. unfold bind. specialize (Hc w1 w2).
  destruct (c w1) as [[a1|e1] v1], (c w2) as [[a2|e2] v2]; simpl in Hc;
    try discriminate.
  - injection Hc as ->. apply Hk.
  - injection Hc as ->. reflexivity.
Qed.

Lemma ret_deterministic {A} (a : A) : deterministic (@ret W A a).
Proof. intros w1 w2. reflexivity. Qed.

Lemma py_call_deterministic (o : option (Callable W)) v :
  deterministic_callable o -> deterministic (py_call o v).
Proof.
  destruct o as [f|]; simpl; intros H; [apply H|]. intros w1 w2. reflexivity.
Qed.

Lemma call_transforms_deterministic (t : Transforms W) x y :
  deterministic_transforms t -> deterministic (call_transforms t x y).
Proof.
  destruct t as [f|st]; simpl; [intros H; apply H|].
  intros (Ht & Hf & Hg). unfold StandardTransform_call.
  apply bind_deterministic.
  - destruct (py_bool (st_transform st));
      [apply py_call_deterministic, Hf | apply Ht].
  - intros x'. apply bind_deterministic.
    + destruct (py_bool (st_target_transform st));
        [apply py_call_deterministic, Hg | apply ret_deterministic].
    + intros y'. apply ret_deterministic.
Qed.

(** With deterministic collaborators the result of a retrieval does not
    depend on the world it starts from. *)
Lemma get_item_deterministic (self : StreamingVisionDataset W) idx w1 w2 :
  deterministic (StreamingDataset_get_item idx) ->
  deterministic_transforms (transforms self) ->
  fst (get_item idx (self, w1)) = fst (get_item idx (self, w2)).
Proof.
  intros He Ht. rewrite !get_item_cases. specialize (He w1 w2).
  destruct (StreamingDataset_get_item idx w1) as [[o1|e1] v1],
           (StreamingDataset_get_item idx w2) as [[o2|e2] v2];
    simpl in He; try discriminate; injection He as ->; [|reflexivity].
  destruct (o2 !! "x") as [x|]; [|reflexivity].
  destruct (o2 !! "y") as [y|]; [|reflexivity].
  rewrite !lift_run.
  pose proof (call_transforms_deterministic _ x y Ht v1 v2) as Hc.
  destruct (call_transforms (transforms self) x y v1),
           (call_transforms (transforms self) x y v2). exact Hc.
Qed.

(** C8: with an engine whose retrieval at idx is deterministic and
    transforms that are deterministic, calling get_item(idx) again,
    right after a first call and from the state that call left, gives
    the result of the first call: the adapter keeps nothing between the
    two calls that could change it. *)
Theorem get_item_twice_same_result (self : StreamingVisionDataset W) idx w :
  deterministic (StreamingDataset_get_item idx) ->
  deterministic_transforms (transforms self) ->
  fst (get_item idx (snd (get_item idx (self, w)))) =
  fst (get_item idx (self, w)).
Proof.
  intros He Ht. pose proof (get_item_self self idx w) as Hs.
  destruct (get_item idx (self, w)) as [r1 [self1 w1]] eqn:H1.
  simpl in Hs. subst self1. simpl.
  rewrite (get_item_deterministic self idx w1 w He Ht), H1. reflexivity.
Qed.

End Properties.

(** * The properties on the instance *)

Section Instance.

Import Example.

(** ** Where the code and the specification part *)

(** C1 fails as stated: StandardTransform(None, next_label) on the first
    image does not return the image itself with the shifted label, and
    StandardTransform(None, None) does not return the pair unchanged: in
    both the image has become a tensor. *)
Lemma absent_input_transform_not_identity :
  StandardTransform_call
    {| st_transform := None; st_target_transform := Some next_label |}
    image0 (PyInt 7) 0%nat <> (Ok (PyTuple [image0; PyInt 8]), 0%nat) /\
  StandardTransform_call
    {| st_transform := None; st_target_transform := None |}
    image0 (PyInt 7) 0%nat <> (Ok (PyTuple [image0; PyInt 7]), 0%nat) /\
  StandardTransform_call
    {| st_transform := None; st_target_transform := None |}
    image0 (PyInt 7) 0%nat =
    (Ok (PyTuple [PyTensor [1; 1; 2]%nat [0 # 255; 255 # 255]; PyInt 7]),
     0%nat).
Proof. repeat split; vm_compute; discriminate. Qed.

(** C5 on an input transform that is false as an object: constructed with
    transform=torch.nn.Sequential() alone, the adapter is built with it as
    its input transform, and calling it on the first image would give the
    image back; yet get_item(0) returns the tensor of to_tensor and not
    that image. *)
Theorem falsy_input_transform_not_applied :
  returns (StreamingVisionDataset_init defaults None
             (Some empty_sequential) None) 0%nat sequential 0%nat /\
  returns (call empty_sequential image0) 1%nat image0 1%nat /\
  get_item 0 (sequential, 0%nat) =
    (Ok (PyTuple [PyTensor [1; 1; 2]%nat [0 # 255; 255 # 255]; PyInt 7]),
     (sequential, 1%nat)) /\
  get_item 0 (sequential, 0%nat) <>
    (Ok (PyTuple [image0; PyInt 7]), (sequential, 1%nat)).
Proof. repeat split; vm_compute; discriminate. Qed.

(** ** The theorems at work *)

Lemma get_item_applies_transforms_witness :
  returns (StreamingDataset_get_item 1) 4%nat
    {[ "x" := image1; "y" := PyInt 3 ]} 5%nat /\
  get_item 1 (flipping, 4%nat) =
    (Ok (PyTuple [PyImage 1 2 [102; 51]; PyInt 4]), (flipping, 5%nat)).
Proof.
  split; [reflexivity|].
  rewrite (get_item_applies_transforms flipping 1 4%nat
             {[ "x" := image1; "y" := PyInt 3 ]} 5%nat image1 (PyInt 3));
    reflexivity.
Defined.

Lemma get_item_missing_key_witness :
  returns (StreamingDataset_get_item 2) 0%nat {[ "x" := image1 ]} 1%nat /\
  get_item 2 (failing, 0%nat) = (Raise (KeyError "y"), (failing, 1%nat)).
Proof.
  split; [reflexivity|].
  rewrite (get_item_missing_key failing 2 0%nat {[ "x" := image1 ]} 1%nat);
    reflexivity.
Defined.

Lemma get_item_propagates_errors_witness :
  get_item 9 (flipping, 3%nat) =
    (Raise (IndexError "index out of range"), (flipping, 3%nat)) /\
  get_item 0 (failing, 3%nat) =
    (Raise (RuntimeError "augmentation failed"), (failing, 4%nat)).
Proof.
  split.
  - apply get_item_propagates_errors. left. reflexivity.
  - apply get_item_propagates_errors. right.
    exists {[ "x" := image0; "y" := PyInt 7 ]}, image0, (PyInt 7), 4%nat.
    repeat split.
    apply (transform_raises _ broken); reflexivity.
Defined.

Lemma configuration_error_iff_witness :
  returns (super_init defaults) 0%nat () 0%nat /\
  raises (StreamingVisionDataset_init defaults (Some describe)
            (Some hflip) None) 0%nat ConfigurationError 0%nat /\
  exists self,
    returns (StreamingVisionDataset_init defaults None (Some hflip)
               (Some next_label)) 0%nat self 0%nat.
Proof.
  split; [reflexivity|]. split.
  - apply (configuration_error_iff defaults (Some describe) (Some hflip) None
             0%nat 0%nat); [reflexivity|].
    split; [discriminate | left; discriminate].
  - apply (configuration_error_iff defaults None (Some hflip)
             (Some next_label) 0%nat 0%nat); [reflexivity|].
    intros [H _]. apply H. reflexivity.
Defined.

Lemma default_normalizes_input_witness :
  returns (super_init defaults) 0%nat () 0%nat /\
  exists self,
    returns (StreamingVisionDataset_init defaults None None None)
      0%nat self 0%nat /\
    get_item 0 (self, 0%nat) =
      (Ok (PyTuple [PyTensor [1; 1; 2]%nat [0 # 255; 255 # 255]; PyInt 7]),
       (self, 1%nat)).
Proof.
  assert (Hs : returns (super_init defaults) 0%nat () 0%nat) by reflexivity.
  split; [exact Hs|].
  destruct (default_normalizes_input defaults 0%nat 0%nat Hs)
    as (self & Hnew & _ & Hget).
  exists self. split; [exact Hnew|].
  rewrite (Hget 0 0%nat {[ "x" := image0; "y" := PyInt 7 ]} 1%nat
             image0 (PyInt 7)); reflexivity.
Defined.

Lemma joint_transform_verbatim_witness :
  returns (super_init defaults) 0%nat () 0%nat /\
  exists self,
    returns (StreamingVisionDataset_init defaults (Some describe) None None)
      0%nat self 0%nat /\
    get_item 0 (self, 0%nat) = (Ok (PyStr "seven"), (self, 1%nat)).
Proof.
  assert (Hs : returns (super_init defaults) 0%nat () 0%nat) by reflexivity.
  split; [exact Hs|].
  destruct (joint_transform_verbatim defaults describe 0%nat 0%nat Hs)
    as (self & Hnew & _ & Hget).
  exists self. split; [exact Hnew|].
  rewrite (Hget 0 0%nat {[ "x" := image0; "y" := PyInt 7 ]} 1%nat
             image0 (PyInt 7)); reflexivity.
Defined.

Lemma absent_input_transform_is_to_tensor_witness :
  truth next_label = true /\
  StandardTransform_call
    {| st_transform := None; st_target_transform := Some next_label |}
    image0 (PyInt 7) 0%nat =
    (Ok (PyTuple [PyTensor [1; 1; 2]%nat [0 # 255; 255 # 255]; PyInt 8]),
     0%nat).
Proof.
  assert (Ht : truth next_label = true) by reflexivity.
  split; [exact Ht|].
  destruct (absent_input_transform_is_to_tensor next_label Ht)
    as (Hg & _ & _).
  rewrite Hg. reflexivity.
Defined.

Lemma to_tensor_L_deterministic x : deterministic (to_tensor_L x).
Proof. intros w1 w2. destruct x; reflexivity. Qed.

Lemma hflip_deterministic v : deterministic (call hflip v).
Proof. intros w1 w2. destruct v; reflexivity. Qed.

Lemma next_label_deterministic v : deterministic (call next_label v).
Proof. intros w1 w2. destruct v; reflexivity. Qed.

Lemma get_item_twice_same_result_witness :
  deterministic (StreamingDataset_get_item 1) /\
  deterministic_transforms (transforms flipping) /\
  fst (get_item 1 (snd (get_item 1 (flipping, 0%nat)))) =
    Ok (PyTuple [PyImage 1 2 [102; 51]; PyInt 4]).
Proof.
  assert (He : deterministic (StreamingDataset_get_item 1))
    by (intros w1 w2; reflexivity).
  assert (Ht : deterministic_transforms (transforms flipping)).
  { split; [|split]; simpl.
    - exact to_tensor_L_deterministic.
    - exact hflip_deterministic.
    - exact next_label_deterministic. }
  split; [exact He|]. split; [exact Ht|].
  rewrite (get_item_twice_same_result flipping 1 0%nat He Ht). reflexivity.
Defined.

End Instance.

(** * Further properties of the constructor and of a retrieval *)

Section Further.

Context {W : Type} {env : Env W}.

(** ** The constructor *)

(** X1: the keyword argument choose has no effect: it is accepted by
    __init__ and not passed on to StreamingDataset.__init__, so the
    constructor does the same whatever its value. *)
Theorem choose_is_ignored kw c ts (t tt : option (Callable W)) w0 :
  StreamingVisionDataset_init (with_choose c kw) ts t tt w0 =
  StreamingVisionDataset_init kw ts t tt w0.
Proof. rewrite !init_cases. reflexivity. Qed.

(** X2: the engine is constructed before the transforms are looked at:
    when StreamingDataset.__init__ raises e, the constructor raises e,
    also for a combination of transforms that would be refused. *)
Theorem engine_error_comes_first kw ts (t tt : option (Callable W)) w0 e w1 :
  raises (super_init kw) w0 e w1 ->
  raises (StreamingVisionDataset_init kw ts t tt) w0 e w1.
Proof.
  unfold raises. intros He. rewrite init_cases, He. reflexivity.
Qed.

(** X3: an adapter that the constructor returns has self.transform and
    self.target_transform as they were passed, and self.transforms agrees
    with them: it is the joint callable when one was passed (and then
    the other two are None), and otherwise the StandardTransform of the
    two. *)
Theorem constructed_is_consistent kw ts (t tt : option (Callable W))
    w0 self w1 :
  returns (StreamingVisionDataset_init kw ts t tt) w0 self w1 ->
  transform self = t /\ target_transform self = tt /\
  consistent self /\
  match ts with
  | Some f => transforms self = Joint f
  | None =>
      transforms self =
        Standard {| st_transform := t; st_target_transform := tt |}
  end.
Proof.
  unfold returns. rewrite init_cases.
  destruct (super_init kw w0) as [[u|e] w]; [|discriminate].
  destruct (is_not_None ts && (is_not_None t || is_not_None tt)) eqn:Hc;
    [discriminate|].
  intros [= <- <-]. unfold consistent. simpl.
  repeat split; try reflexivity.
  - destruct ts as [f|]; simpl; [|split; reflexivity].
    simpl in Hc. destruct t, tt; simpl in Hc; try discriminate.
    split; reflexivity.
  - destruct ts; reflexivity.
Qed.

(** ** StandardTransform *)

(** X5: in StandardTransform.__call__ a callable that is false as an
    object counts for None, in either slot: the input then goes through
    to_tensor and the target passes, and the callable is not called. *)
Theorem falsy_callable_is_absent (f : Callable W)
    (o : option (Callable W)) x y w :
  truth f = false ->
  StandardTransform_call
    {| st_transform := Some f; st_target_transform := o |} x y w =
  StandardTransform_call
    {| st_transform := None; st_target_transform := o |} x y w /\
  StandardTransform_call
    {| st_transform := o; st_target_transform := Some f |} x y w =
  StandardTransform_call
    {| st_transform := o; st_target_transform := None |} x y w.
Proof.
  intros Hf. unfold StandardTransform_call. simpl. rewrite Hf.
  split; reflexivity.
Qed.

(** X6: what a StandardTransform returns is always a pair. Its first
    component is what the input transform (or to_tensor in its place)
    returned on x; its second is what the target transform returned on y,
    run after the first, or y itself when there is no target transform
    to apply. *)
Theorem standard_returns_pair (st : StandardTransform W) x y w r w' :
  returns (StandardTransform_call st x y) w r w' ->
  exists x' y' w1,
    r = PyTuple [x'; y'] /\
    returns (if py_bool (st_transform st)
             then py_call (st_transform st) x
             else to_tensor x) w x' w1 /\
    if py_bool (st_target_transform st)
    then returns (py_call (st_target_transform st) y) w1 y' w'
    else y' = y /\ w' = w1.
Proof.
  unfold returns, StandardTransform_call, bind.
  destruct ((if py_bool (st_transform st)
             then py_call (st_transform st) x
             else to_tensor x) w) as [[x'|e] w1]; [|discriminate].
  destruct (py_bool (st_target_transform st)).
  - destruct (py_call (st_target_transform st) y w1) as [[y'|e] w2] eqn:Hy;
      [|discriminate].
    intros [= <- <-]. exists x', y', w1. auto.
  - intros [= <- <-]. exists x', y, w1. auto.
Qed.

(** ** Retrieval *)

(** X4: constructed with an input transform f and a target transform g,
    both true as objects, get_item returns (f(raw_x), g(raw_y)), f called
    first and g after it. *)
Theorem both_transforms_applied kw (f g : Callable W) w0 w1 :
  truth f = true -> truth g = true ->
  returns (super_init kw) w0 () w1 ->
  exists self,
    returns (StreamingVisionDataset_init kw None (Some f) (Some g))
      w0 self w1 /\
    (forall idx w obj w' x y,
        returns (StreamingDataset_get_item idx) w obj w' ->
        obj !! "x" = Some x -> obj !! "y" = Some y ->
        get_item idx (self, w) =
          lift (x' <- call f x ;; y' <- call g y ;; ret (PyTuple [x'; y']))
            (self, w')).
Proof.
  intros Hf Hg Hsuper. eexists. split.
  - apply (init_returns kw None (Some f) (Some g) w0 w1 Hsuper). reflexivity.
  - intros idx w obj w' x y Hobj Hx Hy.
    rewrite get_item_cases, Hobj, Hx, Hy, !lift_run. simpl.
    unfold StandardTransform_call. simpl. rewrite Hf, Hg. reflexivity.
Qed.


(** X8: get_item returns r exactly when the engine returned a sample
    with both 'x' and 'y' and the transforms returned r on that pair: no
    value comes back after a failed retrieval or a missing key, and none
    is made up by the adapter. *)
Theorem get_item_returns_iff (self : StreamingVisionDataset W) idx w r w' :
  get_item idx (self, w) = (Ok r, (self, w')) <->
  exists obj x y w1,
    returns (StreamingDataset_get_item idx) w obj w1 /\
    obj !! "x" = Some x /\ obj !! "y" = Some y /\
    returns (call_transforms (transforms self) x y) w1 r w'.
Proof.
  rewrite get_item_cases. unfold returns. split.
  - destruct (StreamingDataset_get_item idx w) as [[obj|e1] w1];
      [|discriminate].
    destruct (obj !! "x") as [x|] eqn:Hx; [|discriminate].
    destruct (obj !! "y") as [y|] eqn:Hy; [|discriminate].
    rewrite lift_run. intros H. exists obj, x, y, w1.
    split; [reflexivity|]. split; [exact Hx|]. split; [exact Hy|].
    destruct (call_transforms (transforms self) x y w1) as [r1 w2].
    injection H as -> ->. reflexivity.
  - intros (obj & x & y & w1 & -> & -> & -> & Hc).
    rewrite lift_run, Hc. reflexivity.
Qed.

(** X9: get_item reads self.transforms and nothing else of the adapter:
    two adapters with the same transforms give the same result and leave
    the same world, whatever their transform and target_transform
    attributes are; assigning to these after construction changes
    nothing. *)
Theorem get_item_reads_only_transforms
    (self self' : StreamingVisionDataset W) idx w :
  transforms self = transforms self' ->
  fst (get_item idx (self, w)) = fst (get_item idx (self', w)) /\
  snd (snd (get_item idx (self, w))) = snd (snd (get_item idx (self', w))).
Proof.
  intros Ht. rewrite !get_item_cases, Ht.
  destruct (StreamingDataset_get_item idx w) as [[obj|e] w1]; [|auto].
  destruct (obj !! "x") as [x|]; [|auto].
  destruct (obj !! "y") as [y|]; [|auto].
  rewrite !lift_run.
  destruct (call_transforms (transforms self') x y w1); auto.
Qed.

End Further.

Section FurtherInstance.

Import Example.

Lemma engine_error_comes_first_witness :
  raises (@super_init nat offline defaults) 0%nat
    (RuntimeError "index.json could not be downloaded") 0%nat /\
  raises (@StreamingVisionDataset_init nat offline defaults (Some describe)
            (Some hflip) None) 0%nat
    (RuntimeError "index.json could not be downloaded") 0%nat.
Proof.
  assert (He : raises (@super_init nat offline defaults) 0%nat
                 (RuntimeError "index.json could not be downloaded") 0%nat)
    by reflexivity.
  split; [exact He|].
  apply (@engine_error_comes_first nat offline). exact He.
Defined.

Lemma constructed_is_consistent_witness :
  returns (StreamingVisionDataset_init defaults None (Some hflip)
             (Some next_label)) 0%nat flipping 0%nat /\
  consistent flipping.
Proof.
  assert (Hn : returns (StreamingVisionDataset_init defaults None (Some hflip)
                          (Some next_label)) 0%nat flipping 0%nat)
    by reflexivity.
  split; [exact Hn|].
  apply (constructed_is_consistent _ _ _ _ _ _ _ Hn).
Defined.

Lemma falsy_callable_is_absent_witness :
  truth empty_sequential = false /\
  StandardTransform_call
    {| st_transform := Some empty_sequential;
       st_target_transform := Some next_label |} image0 (PyInt 7) 0%nat =
  StandardTransform_call
    {| st_transform := None;
       st_target_transform := Some next_label |} image0 (PyInt 7) 0%nat.
Proof.
  assert (Hf : truth empty_sequential = false) by reflexivity.
  split; [exact Hf|].
  apply (falsy_callable_is_absent empty_sequential (Some next_label)
           image0 (PyInt 7) 0%nat Hf).
Defined.

Lemma standard_returns_pair_witness :
  exists x' y' w1,
    PyTuple [PyImage 1 2 [102; 51]; PyInt 3] = PyTuple [x'; y'] /\
    returns (call hflip image1) 0%nat x' w1 /\ y' = PyInt 3 /\ 0%nat = w1.
Proof.
  apply (standard_returns_pair
           {| st_transform := Some hflip; st_target_transform := None |}
           image1 (PyInt 3) 0%nat
           (PyTuple [PyImage 1 2 [102; 51]; PyInt 3]) 0%nat).
  reflexivity.
Defined.

Lemma both_transforms_applied_witness :
  returns (super_init defaults) 0%nat () 0%nat /\
  exists self,
    returns (StreamingVisionDataset_init defaults None (Some hflip)
               (Some next_label)) 0%nat self 0%nat /\
    get_item 1 (self, 0%nat) =
      (Ok (PyTuple [PyImage 1 2 [102; 51]; PyInt 4]), (self, 1%nat)).
Proof.
  assert (Hs : returns (super_init defaults) 0%nat () 0%nat) by reflexivity.
  split; [exact Hs|].
  destruct (both_transforms_applied defaults hflip next_label 0%nat 0%nat
              eq_refl eq_refl Hs) as (self & Hnew & Hget).
  exists self. split; [exact Hnew|].
  rewrite (Hget 1 0%nat {[ "x" := image1; "y" := PyInt 3 ]} 1%nat
             image1 (PyInt 3)); reflexivity.
Defined.

Lemma get_item_reads_only_transforms_witness :
  transforms flipping = transforms flipping_reassigned /\
  fst (get_item 1 (flipping_reassigned, 0%nat)) =
    Ok (PyTuple [PyImage 1 2 [102; 51]; PyInt 4]).
Proof.
  assert (Ht : transforms flipping = transforms flipping_reassigned)
    by reflexivity.
  split; [exact Ht|].
  rewrite <- (proj1 (get_item_reads_only_transforms flipping
                       flipping_reassigned 1 0%nat Ht)).
  reflexivity.
Defined.

End FurtherInstance.
